(** * Distributed control system: modules, actuator safety interlock, registry

    A shallow embedding of [include/dcs/module.h], [include/dcs/control_system.h],
    the temperature-control example (TemperatureSensor / HeaterActuator) and the
    mock modules of the unit tests.

    C++ [double] is IEEE binary64 and is modelled by Rocq's primitive floats,
    whose operations are the same hardware operations; [std::string] is
    [string]; [size_t] and the millisecond count are [Z]; the registry's
    [std::unordered_map] is a [gmap]. *)

From Stdlib Require Import ZArith Floats.
From stdpp Require Import base option strings gmap.

(* C++ decimal literals such as 0.01 denote the nearest binary64 value. *)
Set Warnings "-inexact-float".

Local Open Scope float_scope.

(** The result type of a [void] member function. *)
Definition void : Type := Datatypes.unit.

(** ** Data types of [module.h] *)

Inductive Unit :=
| NONE | CELSIUS | FAHRENHEIT | METERS | MILLIMETERS | RADIANS
| DEGREES | NEWTONS | PASCALS | VOLTS | AMPERES | WATTS.

Record ActuatorCommand := mkActuatorCommand {
  target : string;
  value : float;
  unit : Unit
}.

(** [ActuatorCommand(t, v, u = Unit::NONE)]. *)
Definition ActuatorCommand_ctor (t : string) (v : float) : ActuatorCommand :=
  mkActuatorCommand t v NONE.

Inductive ModuleState :=
| UNINITIALIZED | INITIALIZING | READY | RUNNING | PAUSED | ERROR | SHUTDOWN.

Definition ModuleState_eqb (a b : ModuleState) : bool :=
  match a, b with
  | UNINITIALIZED, UNINITIALIZED | INITIALIZING, INITIALIZING
  | READY, READY | RUNNING, RUNNING | PAUSED, PAUSED
  | ERROR, ERROR | SHUTDOWN, SHUTDOWN => true
  | _, _ => false
  end.

(** [std::numeric_limits<double>::max()]: (2 - 2^-52) * 2^1023. *)
Definition DBL_MAX : float := 0x1.fffffffffffffp+1023.

(** Effects a call leaves outside the object: lines written to [std::cout]
    and calls of [Module::updateMetrics], whose body is in the library's
    implementation file and is recorded here by its argument. *)
Inductive Effect :=
| CoutInitializing (name : string) (what : string)
| CoutHeaterPower (name : string) (power : float)
| CoutHighPowerWarning (requested : float)
| UpdateMetrics (processingTime : float).

(** How a call ends: it returns a value, or an exception propagates. *)
Inductive Outcome (A : Type) :=
| Returned (a : A)
| Thrown (what : string).
Arguments Returned {A} a.
Arguments Thrown {A} what.

(** The result of calling a member function on an object of type [O]. *)
Record Call (O A : Type) := mkCall {
  outcome : Outcome A;
  self : O;
  effects : list Effect
}.
Arguments mkCall {O A} outcome self effects.
Arguments outcome {O A} c.
Arguments self {O A} c.
Arguments effects {O A} c.

(** ** [class Module] *)

(** The identity and the lifecycle state.  [metrics_] is written only by
    [updateMetrics] (see [Effect]) and the IPC handles only by the control
    system; no member function below reads them. *)
Record ModuleBase := mkModuleBase {
  name_ : string;
  version_ : string;
  state_ : ModuleState
}.

(** [Module(name, version)]; [state_{ModuleState::UNINITIALIZED}]. *)
Definition ModuleBase_ctor (name version : string) : ModuleBase :=
  mkModuleBase name version UNINITIALIZED.

Definition getState (m : ModuleBase) : ModuleState := state_ m.
Definition getName (m : ModuleBase) : string := name_ m.
Definition getVersion (m : ModuleBase) : string := version_ m.

Definition setState (st : ModuleState) (m : ModuleBase) : ModuleBase :=
  mkModuleBase (name_ m) (version_ m) st.

(** [virtual bool isHealthy() const { return state_ == ModuleState::RUNNING; }] *)
Definition isHealthy (m : ModuleBase) : bool :=
  ModuleState_eqb (state_ m) RUNNING.

(** Modelled from the spec: the bodies of [Module::start], [Module::stop]
    and [Module::shutdown] (declared in module.h, defined in the library's
    implementation file).  Section 4.1 lists the transitions: start() takes
    Ready or Paused to Running, stop() takes Running to Paused, shutdown()
    takes any state to Shutdown.  [None] stands for a call in a state for
    which the section lists no transition. *)
Definition start_transition (s : ModuleState) : option ModuleState :=
  match s with
  | READY | PAUSED => Some RUNNING
  | _ => None
  end.

(** Modelled from the spec: [Module::stop], Running to Paused. *)
Definition stop_transition (s : ModuleState) : option ModuleState :=
  match s with
  | RUNNING => Some PAUSED
  | _ => None
  end.

(** Modelled from the spec: [Module::shutdown], any state to Shutdown. *)
Definition shutdown_transition (s : ModuleState) : option ModuleState :=
  Some SHUTDOWN.

(** A transition applied to a module's [state_]. *)
Definition apply_transition (t : ModuleState -> option ModuleState)
    (m : ModuleBase) : option ModuleBase :=
  match t (state_ m) with
  | Some s' => Some (setState s' m)
  | None => None
  end.

(** Modelled from the spec: [Module::start], [Module::stop] and
    [Module::shutdown] as members acting on a module. *)
Definition start : ModuleBase -> option ModuleBase := apply_transition start_transition.
Definition stop : ModuleBase -> option ModuleBase := apply_transition stop_transition.
Definition shutdown : ModuleBase -> option ModuleBase := apply_transition shutdown_transition.

(** ** [class ActuatorModule] *)

Record Limits := mkLimits {
  minValue : float;
  maxValue : float;
  maxRate : float
}.

(** The default member initializers of [struct Limits]. *)
Definition Limits_default : Limits :=
  mkLimits (- DBL_MAX) DBL_MAX DBL_MAX.

Record ActuatorModule := mkActuatorModule {
  module_ : ModuleBase;
  emergencyStop_ : bool;
  limits_ : Limits
}.

(** [using Module::Module;] with [emergencyStop_{false}] and [Limits limits_]. *)
Definition ActuatorModule_ctor (name version : string) : ActuatorModule :=
  mkActuatorModule (ModuleBase_ctor name version) false Limits_default.

Definition setEmergencyStop (stop : bool) (a : ActuatorModule) : ActuatorModule :=
  mkActuatorModule (module_ a) stop (limits_ a).
Definition isEmergencyStopped (a : ActuatorModule) : bool := emergencyStop_ a.
Definition setLimits (l : Limits) (a : ActuatorModule) : ActuatorModule :=
  mkActuatorModule (module_ a) (emergencyStop_ a) l.
Definition setModule (m : ModuleBase) (a : ActuatorModule) : ActuatorModule :=
  mkActuatorModule m (emergencyStop_ a) (limits_ a).

(** Modelled from the spec: the body of [ActuatorModule::validateCommand]
    (declared in module.h, defined in the library's implementation file).
    Section 4.4: it "fails (returns invalid) if cmd.value is outside
    [minValue, maxValue]"; being a [const] member returning [bool], the
    rate limiting the section also mentions is left to [execute]. *)
Definition validateCommand (a : ActuatorModule) (cmd : ActuatorCommand) : bool :=
  (minValue (limits_ a) <=? value cmd) && (value cmd <=? maxValue (limits_ a)).

(** What "outside" and "inside" the configured range mean for a [double]
    (a NaN is neither). *)
Definition out_of_range (l : Limits) (v : float) : Prop :=
  (v <? minValue l) = true \/ (maxValue l <? v) = true.

Definition in_range (l : Limits) (v : float) : Prop :=
  (minValue l <=? v) = true /\ (v <=? maxValue l) = true.

(** Modelled from the spec: the body of the base
    [ActuatorModule::isSafeToExecute] (declared in module.h).  Section 4.4:
    "true only if the module is not emergency-stopped and the command
    validates". *)
Definition ActuatorModule_isSafeToExecute (a : ActuatorModule)
    (cmd : ActuatorCommand) : bool :=
  negb (isEmergencyStopped a) && validateCommand a cmd.

(** [struct SensorData]; the time point is a tick count of the steady clock. *)
Module SensorData.

Record t := mk {
  name : string;
  value : float;
  unit : Unit;
  timestamp : Z
}.

(** [SensorData(n, v, u)], with [now] the clock reading it takes. *)
Definition ctor (n : string) (v : float) (u : Unit) (now : Z) : t := mk n v u now.

End SensorData.

(** ** [class SensorModule] *)

Record SensorModule := mkSensorModule {
  sensor_module_ : ModuleBase;
  updateRate_ : float
}.

(** [using Module::Module;] with [updateRate_{10.0}]. *)
Definition SensorModule_ctor (name version : string) : SensorModule :=
  mkSensorModule (ModuleBase_ctor name version) 10.0.

(** ** The example heater actuator *)

Module HeaterActuator.

Record t := mk {
  actuator : ActuatorModule;
  powerLevel_ : float
}.

Definition set_powerLevel (p : float) (h : t) : t := mk (actuator h) p.
Definition set_actuator (a : ActuatorModule) (h : t) : t := mk a (powerLevel_ h).

(** The constructor's limits: 0-100% power, at most 10%/s. *)
Definition physical_limits : Limits := mkLimits 0.0 100.0 10.0.

Definition ctor : t :=
  mk (setLimits physical_limits (ActuatorModule_ctor "HeaterActuator" "1.0.0")) 0.0.

Definition getPowerLevel (h : t) : float := powerLevel_ h.

(** The inherited [setEmergencyStop] and [setLimits]. *)
Definition setEmergencyStop (stop : bool) (h : t) : t :=
  set_actuator (setEmergencyStop stop (actuator h)) h.
Definition setLimits (l : Limits) (h : t) : t :=
  set_actuator (setLimits l (actuator h)) h.
Definition getState (h : t) : ModuleState := getState (module_ (actuator h)).

(** [connectHardware()] has an empty body. *)
Definition initialize (h : t) : Call t void :=
  let a := actuator h in
  mkCall (Returned tt)
         (set_actuator (setModule (setState READY (module_ a)) a) h)
         [CoutInitializing (getName (module_ a)) "heater actuator"].

Definition execute (h : t) (cmd : ActuatorCommand) : Call t void :=
  let a := actuator h in
  if negb (validateCommand a cmd) then
    mkCall (Thrown "Invalid heater command") h []
  else if isEmergencyStopped a then
    mkCall (Returned tt) (set_powerLevel 0.0 h) []
  else
    (* Apply rate limiting *)
    let targetPower := value cmd in
    let maxChange := maxRate (limits_ a) * 0.01 in
    let h' :=
      if maxChange <? abs (targetPower - powerLevel_ h) then
        set_powerLevel
          (powerLevel_ h + (if powerLevel_ h <? targetPower then maxChange else - maxChange)) h
      else
        set_powerLevel targetPower h in
    mkCall (Returned tt) h'
           [CoutHeaterPower (getName (module_ a)) (powerLevel_ h'); UpdateMetrics 0.001].

Definition isSafeToExecute (h : t) (cmd : ActuatorCommand) : Call t bool :=
  let a := actuator h in
  mkCall (Returned (negb (isEmergencyStopped a) && validateCommand a cmd)) h
         (if 90.0 <? value cmd then [CoutHighPowerWarning (value cmd)] else []).

(** Issue a sequence of commands, stopping at the first exception; the
    power level after each completed call is collected. *)
Fixpoint run (h : t) (cmds : list ActuatorCommand) : list float * t :=
  match cmds with
  | [] => ([], h)
  | cmd :: rest =>
      let c := execute h cmd in
      match outcome c with
      | Returned _ =>
          let '(ps, hn) := run (self c) rest in
          (getPowerLevel (self c) :: ps, hn)
      | Thrown _ => ([], self c)
      end
  end.

(** Objects reached through the public interface, used in concrete
    evaluations below. *)

(** After one accepted command of 50%: the power level is one step up. *)
Definition warm : t := self (execute ctor (ActuatorCommand_ctor "heater" 50.0)).

(** The same heater after [setEmergencyStop(true)]. *)
Definition warm_stopped : t := setEmergencyStop true warm.

(** After [setLimits({0.0, 50.0, 10.0})]. *)
Definition half_range : t := setLimits (mkLimits 0.0 50.0 10.0) ctor.

(** The setpoints 0, 100, 0. *)
Definition setpoints : list ActuatorCommand :=
  [ActuatorCommand_ctor "heater" 0.0;
   ActuatorCommand_ctor "heater" 100.0;
   ActuatorCommand_ctor "heater" 0.0].

End HeaterActuator.

(** ** The mock modules of the unit tests *)

(** [std::atomic<int>]: increments wrap around in two's complement. *)
Definition wrap_int (z : Z) : Z :=
  ((z + 2 ^ 31) mod 2 ^ 32 - 2 ^ 31)%Z.

Module MockActuator.

Record t := mk {
  actuator : ActuatorModule;
  lastCommand_ : float;
  executeCount_ : Z
}.

Definition ctor : t :=
  mk (setLimits (mkLimits 0.0 100.0 50.0) (ActuatorModule_ctor "MockActuator" "1.0.0"))
     0.0 0%Z.

Definition initialize (m : t) : Call t void :=
  let a := actuator m in
  mkCall (Returned tt)
         (mk (setModule (setState READY (module_ a)) a) (lastCommand_ m) (executeCount_ m))
         [].

Definition execute (m : t) (cmd : ActuatorCommand) : Call t void :=
  if negb (validateCommand (actuator m) cmd) then
    mkCall (Thrown "Invalid command") m []
  else
    mkCall (Returned tt)
           (mk (actuator m) (value cmd) (wrap_int (executeCount_ m + 1)))
           [].

(** The inherited [getState] and [setEmergencyStop]. *)
Definition getState (m : t) : ModuleState := getState (module_ (actuator m)).
Definition setEmergencyStop (stop : bool) (m : t) : t :=
  mk (setEmergencyStop stop (actuator m)) (lastCommand_ m) (executeCount_ m).

Definition getLastCommand (m : t) : float := lastCommand_ m.
Definition getExecuteCount (m : t) : Z := executeCount_ m.

(** Not overridden: the base class's function. *)
Definition isSafeToExecute (m : t) (cmd : ActuatorCommand) : bool :=
  ActuatorModule_isSafeToExecute (actuator m) cmd.

(** A caller's loop over commands ([actuator.execute(cmd)] repeated, as in
    the benchmarks); the first exception ends it. *)
Fixpoint run (m : t) (cmds : list ActuatorCommand) : Outcome void * t :=
  match cmds with
  | [] => (Returned tt, m)
  | cmd :: rest =>
      let c := execute m cmd in
      match outcome c with
      | Returned _ => run (self c) rest
      | Thrown what => (Thrown what, self c)
      end
  end.

End MockActuator.

Module MockSensor.

Record t := mk {
  sensor : SensorModule;
  initialized_ : bool;
  readCount_ : Z
}.

Definition ctor : t :=
  mk (SensorModule_ctor "MockSensor" "1.0.0") false 0%Z.

Definition module_of (s : t) : ModuleBase := sensor_module_ (sensor s).
Definition set_module (m : ModuleBase) (s : t) : t :=
  mk (mkSensorModule m (updateRate_ (sensor s))) (initialized_ s) (readCount_ s).

Definition initialize (s : t) : Call t void :=
  mkCall (Returned tt)
         (mk (mkSensorModule (setState READY (module_of s)) (updateRate_ (sensor s)))
             true (readCount_ s))
         [].

(** The inherited lifecycle members. *)
Definition getState (s : t) : ModuleState := getState (module_of s).
Definition isHealthy (s : t) : bool := isHealthy (module_of s).
Definition start (s : t) : option t := m ← start (module_of s); Some (set_module m s).
Definition stop (s : t) : option t := m ← stop (module_of s); Some (set_module m s).
Definition shutdown (s : t) : option t := m ← shutdown (module_of s); Some (set_module m s).

Definition isInitialized (s : t) : bool := initialized_ s.
Definition getReadCount (s : t) : Z := readCount_ s.

(** The sensor of the lifecycle test after [initialize()] and [start()]. *)
Definition running : t := default ctor (start (self (initialize ctor))).

(** [read()]: [now] is the reading of [std::chrono::steady_clock::now()]
    taken by the [SensorData] constructor. *)
Definition read (now : Z) (s : t) : SensorData.t * t :=
  (SensorData.ctor "test" 42.0 NONE now,
   mk (sensor s) (initialized_ s) (wrap_int (readCount_ s + 1))).

(** Clock readings [0, 1, ..., n-1], for concrete evaluations. *)
Definition seq_Z_clock (n : nat) : list Z := map Z.of_nat (seq 0 n).

(** Successive reads, one per clock reading. *)
Fixpoint read_all (clock : list Z) (s : t) : list SensorData.t * t :=
  match clock with
  | [] => ([], s)
  | now :: later =>
      let '(d, s1) := read now s in
      let '(ds, sn) := read_all later s1 in
      (d :: ds, sn)
  end.

End MockSensor.

(** ** The example temperature sensor (state and the pure members) *)

Module TemperatureSensor.

Record t := mk {
  sensor : SensorModule;
  currentTemp_ : float;
  ambientTemp_ : float;
  heaterPower_ : float;
  readCount_ : Z;
  calibrated_ : bool
}.

Definition setHeaterPower (power : float) (s : t) : t :=
  mk (sensor s) (currentTemp_ s) (ambientTemp_ s) power (readCount_ s) (calibrated_ s).

Definition needsCalibration (s : t) : bool :=
  negb (calibrated_ s) || (10000 <? readCount_ s)%Z.

(** What [calibrate()] does besides changing the object. *)
Inductive CalibrationEffect :=
| CoutCalibrating (name : string)
| SleepForMilliseconds (ms : Z).

Definition calibrate (s : t) : t * list CalibrationEffect :=
  (mk (sensor s) (currentTemp_ s) (ambientTemp_ s) (heaterPower_ s) (readCount_ s) true,
   [CoutCalibrating (getName (sensor_module_ (sensor s))); SleepForMilliseconds 500]).

End TemperatureSensor.

(** ** [control_system.h] *)

(** [size_t] is 64 bits wide. *)
Definition to_size_t (z : Z) : Z := (z mod 2 ^ 64)%Z.

Record Config := mkConfig {
  sharedMemorySize : Z;
  messageQueueSize : Z;
  enableRedundancy : bool;
  enableMetrics : bool;
  logLevel : string;
  watchdogTimeout : Z  (* std::chrono::milliseconds *)
}.

(** The default member initializers of [struct Config]. *)
Definition Config_default : Config :=
  mkConfig (to_size_t (100 * 1024 * 1024)) (to_size_t 10000) false true "INFO" 5000.

(** The classes of the hierarchy rooted at [Module]. *)
Inductive ClassId :=
| C_Module | C_SensorModule | C_ActuatorModule
| C_TemperatureSensor | C_HeaterActuator | C_MockSensor | C_MockActuator.

Global Instance ClassId_eq_dec : EqDecision ClassId.
Proof. solve_decision. Defined.

(** The direct base class. *)
Definition base_class (c : ClassId) : option ClassId :=
  match c with
  | C_Module => None
  | C_SensorModule | C_ActuatorModule => Some C_Module
  | C_TemperatureSensor | C_MockSensor => Some C_SensorModule
  | C_HeaterActuator | C_MockActuator => Some C_ActuatorModule
  end.

(** [derives n c T]: [T] is [c] or a base of [c] at most [n] steps up. *)
Fixpoint derives (n : nat) (c T : ClassId) : bool :=
  bool_decide (c = T) ||
  match n with
  | O => false
  | S n' => match base_class c with
            | Some b => derives n' b T
            | None => false
            end
  end.

(** The hierarchy is two levels deep. *)
Definition is_a (c T : ClassId) : bool := derives 2 c T.

(** An object owned through [std::shared_ptr<Module>], with its dynamic type. *)
Inductive ModuleObj :=
| TemperatureSensorObj (s : TemperatureSensor.t)
| HeaterActuatorObj (h : HeaterActuator.t)
| MockSensorObj (s : MockSensor.t)
| MockActuatorObj (a : MockActuator.t).

Definition dynamic_type (o : ModuleObj) : ClassId :=
  match o with
  | TemperatureSensorObj _ => C_TemperatureSensor
  | HeaterActuatorObj _ => C_HeaterActuator
  | MockSensorObj _ => C_MockSensor
  | MockActuatorObj _ => C_MockActuator
  end.

(** [std::dynamic_pointer_cast<T>]: [None] is the empty [shared_ptr]. *)
Definition dynamic_pointer_cast (T : ClassId) (p : option ModuleObj) : option ModuleObj :=
  match p with
  | Some o => if is_a (dynamic_type o) T then Some o else None
  | None => None
  end.

Module ControlSystem.

Record ModuleInfo := mkModuleInfo {
  module : option ModuleObj;   (* std::shared_ptr<Module> *)
  libraryHandle : Z;           (* void* *)
  libraryPath : string
}.

Record t := mk {
  config_ : Config;
  running_ : bool;
  metricsEnabled_ : bool;
  modules_ : gmap string ModuleInfo
}.

Definition isRunning (cs : t) : bool := running_ cs.

(** [template<typename T> std::shared_ptr<T> getModule(const std::string& name)] *)
Definition getModule (T : ClassId) (cs : t) (name : string) : option ModuleObj :=
  match modules_ cs !! name with
  | Some it => dynamic_pointer_cast T (module it)
  | None => None
  end.

(** A registry holding the test's mock actuator under the name "heater". *)
Definition sample_system : t :=
  mk Config_default false false
     {[ "heater" := mkModuleInfo (Some (MockActuatorObj MockActuator.ctor)) 0 "" ]}.

End ControlSystem.

(** ** The PID controller of the example *)

(** [std::clamp(v, lo, hi)]: [(v < lo) ? lo : (hi < v) ? hi : v]. *)
Definition clamp (v lo hi : float) : float :=
  if v <? lo then lo else if hi <? v then hi else v.

Module PIDController.

Record t := mk {
  kp_ : float;
  ki_ : float;
  kd_ : float;
  integral_ : float;
  lastError_ : float;
  lastDerivative_ : float;
  integralLimit_ : float;
  alpha_ : float
}.

(** [PIDController(kp, ki, kd)] with the default member initializers. *)
Definition ctor (kp ki kd : float) : t :=
  mk kp ki kd 0.0 0.0 0.0 50.0 0.1.

(** [calculate(setpoint, measurement, dt)]: the returned output and the
    controller afterwards.  Each product and sum is rounded on its own. *)
Definition calculate (c : t) (setpoint measurement dt : float) : float * t :=
  let error := setpoint - measurement in
  (* Proportional term *)
  let p := kp_ c * error in
  (* Integral term with anti-windup *)
  let integral := integral_ c + error * dt in
  let integral := clamp integral (- integralLimit_ c) (integralLimit_ c) in
  let i := ki_ c * integral in
  (* Derivative term with filtering *)
  let derivative := (error - lastError_ c) / dt in
  let derivative := alpha_ c * derivative + (1.0 - alpha_ c) * lastDerivative_ c in
  let d := kd_ c * derivative in
  (clamp (p + i + d) 0.0 100.0,
   mk (kp_ c) (ki_ c) (kd_ c) integral error derivative (integralLimit_ c) (alpha_ c)).

Definition reset (c : t) : t :=
  mk (kp_ c) (ki_ c) (kd_ c) 0.0 0.0 0.0 (integralLimit_ c) (alpha_ c).

(** One call's arguments. *)
Record Sample := mkSample {
  setpoint : float;
  measurement : float;
  dt : float
}.

(** Successive calls of [calculate], with the outputs in order. *)
Fixpoint calculate_all (c : t) (samples : list Sample) : list float * t :=
  match samples with
  | [] => ([], c)
  | x :: rest =>
      let '(out, c1) := calculate c (setpoint x) (measurement x) (dt x) in
      let '(outs, cn) := calculate_all c1 rest in
      (out :: outs, cn)
  end.

End PIDController.

(** The control part of one iteration of the loop in [main]: the PID output
    for the temperature just read becomes the heater's command.  The result
    is the controller afterwards and the call of [heater->execute]. *)
Definition control_iteration (pid : PIDController.t) (heater : HeaterActuator.t)
    (setpoint temperature dt : float) : PIDController.t * Call HeaterActuator.t void :=
  let '(controlOutput, pid1) := PIDController.calculate pid setpoint temperature dt in
  (pid1, HeaterActuator.execute heater (ActuatorCommand_ctor "heater" controlOutput)).

(** * Properties *)

(** ** Comparison of binary64 values *)

Section FloatOrder.

(** Swapping the arguments of the specification's comparison flips it. *)
Lemma SFcompare_antisym (x y : spec_float) :
  SFcompare y x = option_map CompOpp (SFcompare x y).
Proof.
  destruct x as [[]|[]| |[] mx ex], y as [[]|[]| |[] my ey]; simpl; try reflexivity;
    f_equal; rewrite (Z.compare_antisym ex ey); destruct (ex ?= ey)%Z; simpl;
    try reflexivity; pose proof (Pos.compare_cont_antisym mx my Eq) as H; simpl in H;
    rewrite <- H; now destruct (Pos.compare_cont Eq mx my).
Qed.

(** [x < y] excludes [y <= x] (both are false when a NaN is involved). *)
Lemma ltb_leb_false (x y : float) : (x <? y) = true -> (y <=? x) = false.
Proof.
  rewrite ltb_spec, leb_spec. unfold SFltb, SFleb.
  rewrite (SFcompare_antisym (Prim2SF x) (Prim2SF y)).
  destruct (SFcompare (Prim2SF x) (Prim2SF y)) as [[]|]; simpl; congruence.
Qed.







End FloatOrder.

(** ** The unit tests, replayed on the model *)

(** [TEST_F(ModuleTest, ModuleLifecycle)]. *)
Example test_ModuleLifecycle :
  let sensor0 := MockSensor.ctor in
  MockSensor.getState sensor0 = UNINITIALIZED /\
  let sensor1 := self (MockSensor.initialize sensor0) in
  MockSensor.getState sensor1 = READY /\ MockSensor.isInitialized sensor1 = true /\
  exists sensor2 sensor3 sensor4,
    MockSensor.start sensor1 = Some sensor2 /\
    MockSensor.getState sensor2 = RUNNING /\ MockSensor.isHealthy sensor2 = true /\
    MockSensor.stop sensor2 = Some sensor3 /\
    MockSensor.getState sensor3 = PAUSED /\
    MockSensor.shutdown sensor3 = Some sensor4 /\
    MockSensor.getState sensor4 = SHUTDOWN.
Proof. cbv zeta. repeat split. do 3 eexists. repeat split. Qed.

(** [TEST_F(ModuleTest, ActuatorExecution)]. *)
Example test_ActuatorExecution :
  let actuator := self (MockActuator.initialize MockActuator.ctor) in
  let cmd := ActuatorCommand_ctor "test" 50.0 in
  let r := MockActuator.execute actuator cmd in
  outcome r = Returned tt /\
  MockActuator.getLastCommand (self r) = 50.0 /\
  MockActuator.getExecuteCount (self r) = 1%Z /\
  let overLimit := ActuatorCommand_ctor "test" 150.0 in
  outcome (MockActuator.execute (self r) overLimit) = Thrown "Invalid command" /\
  let stopped := setEmergencyStop true (MockActuator.actuator (self r)) in
  isEmergencyStopped stopped = true /\
  ActuatorModule_isSafeToExecute stopped cmd = false.
Proof. cbv zeta. repeat split. Qed.

(** ** C5: health *)

(** C5. For every module and every state, [isHealthy()] returns true if and
    only if the state is Running; it returns false in Uninitialized,
    Initializing, Ready, Paused, Error and Shutdown. *)
Theorem C5_isHealthy_iff_running :
  forall m : ModuleBase,
    (isHealthy m = true <-> getState m = RUNNING) /\
    isHealthy m = match getState m with
                  | RUNNING => true
                  | UNINITIALIZED | INITIALIZING | READY | PAUSED | ERROR | SHUTDOWN => false
                  end.
Proof.
  intros [n v st]. unfold isHealthy, getState. simpl.
  destruct st; simpl; split; try reflexivity; split; congruence.
Qed.

(** ** C8: configuration defaults *)

(** C8. A default-constructed [Config] has sharedMemorySize = 100MB
    (100 * 1024 * 1024 bytes), messageQueueSize = 10000, enableRedundancy =
    false, enableMetrics = true, logLevel = "INFO" and watchdogTimeout =
    5000 ms. *)
Theorem C8_Config_defaults :
  sharedMemorySize Config_default = (100 * 1024 * 1024)%Z /\
  sharedMemorySize Config_default = 104857600%Z /\
  messageQueueSize Config_default = 10000%Z /\
  enableRedundancy Config_default = false /\
  enableMetrics Config_default = true /\
  logLevel Config_default = "INFO" /\
  watchdogTimeout Config_default = 5000%Z.
Proof. repeat split. Qed.

(** ** C7: typed module lookup *)

Section GetModule.

Import ControlSystem.

Lemma dynamic_pointer_cast_Some (T : ClassId) (p : option ModuleObj) (o : ModuleObj) :
  dynamic_pointer_cast T p = Some o <-> p = Some o /\ is_a (dynamic_type o) T = true.
Proof.
  unfold dynamic_pointer_cast. destruct p as [o'|].
  - destruct (is_a (dynamic_type o') T) eqn:E; split.
    + intros [= <-]. auto.
    + intros [[= <-] _]. reflexivity.
    + discriminate.
    + intros [[= <-] H]. congruence.
  - split; [discriminate | intros [H _]; discriminate].
Qed.

Example getModule_actuator :
  getModule C_ActuatorModule sample_system "heater" = Some (MockActuatorObj MockActuator.ctor).
Proof. reflexivity. Qed.

Example getModule_wrong_capability :
  getModule C_SensorModule sample_system "heater" = None /\
  getModule C_HeaterActuator sample_system "heater" = None.
Proof. split; reflexivity. Qed.

Example getModule_absent :
  getModule C_ActuatorModule sample_system "sensor" = None.
Proof. reflexivity. Qed.

(** C7. The typed lookup [getModule<T>(name)] returns an empty handle when
    no module is registered under [name], and also when the registered
    module does not implement the requested class [T]; it returns a
    non-empty handle exactly when the name is registered and the module's
    dynamic type is [T] or derives from it, and the handle is then the
    registered module. *)
Theorem C7_getModule_checked (T : ClassId) (cs : ControlSystem.t) (name : string) :
  (modules_ cs !! name = None -> getModule T cs name = None) /\
  (forall it o, modules_ cs !! name = Some it -> module it = Some o ->
                is_a (dynamic_type o) T = false -> getModule T cs name = None) /\
  (forall o, getModule T cs name = Some o <->
             exists it, modules_ cs !! name = Some it /\ module it = Some o /\
                        is_a (dynamic_type o) T = true).
Proof.
  unfold getModule. split; [|split].
  - intros ->. reflexivity.
  - intros it o -> Ho Hn. unfold dynamic_pointer_cast. rewrite Ho, Hn. reflexivity.
  - intros o. destruct (modules_ cs !! name) as [it|].
    + rewrite dynamic_pointer_cast_Some. split.
      * intros [Ho Ha]. exists it. auto.
      * intros (it' & [= <-] & Ho & Ha). auto.
    + split; [discriminate | intros (it' & Hit & _); discriminate].
Qed.

End GetModule.

(** ** C4: the lifecycle state machine *)

(** [initialize()] of a module already running returns normally and puts
    it back to Ready: nothing is raised for a module past Uninitialized. *)
Lemma C4_initialize_past_uninitialized :
  MockSensor.getState MockSensor.running = RUNNING /\
  outcome (MockSensor.initialize MockSensor.running) = Returned tt /\
  MockSensor.getState (self (MockSensor.initialize MockSensor.running)) = READY.
Proof. repeat split. Qed.

(** C4 (amended). [start()] moves a module from Ready or Paused to Running
    and from no other state; [stop()] moves it from Running to Paused and
    from no other state; [shutdown()] moves it from any state to Shutdown
    and is idempotent; [initialize()] moves a module from Uninitialized,
    and equally from every other state, to Ready and always returns
    normally. *)
Theorem C4_lifecycle_transitions :
  forall m : ModuleBase,
    (forall m', start m = Some m' <->
                (getState m = READY \/ getState m = PAUSED) /\ m' = setState RUNNING m) /\
    (forall m', stop m = Some m' <-> getState m = RUNNING /\ m' = setState PAUSED m) /\
    shutdown m = Some (setState SHUTDOWN m) /\
    (m' ← shutdown m; shutdown m') = shutdown m /\
    (forall s : MockSensor.t,
        outcome (MockSensor.initialize s) = Returned tt /\
        MockSensor.getState (self (MockSensor.initialize s)) = READY) /\
    (forall a : MockActuator.t,
        outcome (MockActuator.initialize a) = Returned tt /\
        MockActuator.getState (self (MockActuator.initialize a)) = READY) /\
    (forall h : HeaterActuator.t,
        outcome (HeaterActuator.initialize h) = Returned tt /\
        HeaterActuator.getState (self (HeaterActuator.initialize h)) = READY).
Proof.
  intros [n v st].
  unfold start, stop, shutdown, apply_transition, getState. simpl.
  split; [|split; [|repeat split]].
  - intros m'. destruct st; simpl; split;
      solve [ discriminate | intros [= <-]; auto
            | intros [[H|H] ->]; solve [discriminate | reflexivity] ].
  - intros m'. destruct st; simpl; split;
      solve [ discriminate | intros [= <-]; auto
            | intros [H ->]; solve [discriminate | reflexivity] ].
Qed.

(** ** The safety interlock: validation, emergency stop, rate limiting *)

Section Interlock.

Import HeaterActuator.

Lemma validateCommand_in_range (a : ActuatorModule) (cmd : ActuatorCommand) :
  validateCommand a cmd = true <-> in_range (limits_ a) (value cmd).
Proof. unfold validateCommand, in_range. apply andb_true_iff. Qed.

Lemma validateCommand_out_of_range (a : ActuatorModule) (cmd : ActuatorCommand) :
  out_of_range (limits_ a) (value cmd) -> validateCommand a cmd = false.
Proof.
  unfold validateCommand, out_of_range. intros [H|H].
  - rewrite (ltb_leb_false _ _ H). reflexivity.
  - rewrite (ltb_leb_false _ _ H). apply andb_false_r.
Qed.

(** The three paths through [HeaterActuator::execute]. *)
Lemma execute_invalid (h : t) (cmd : ActuatorCommand) :
  validateCommand (actuator h) cmd = false ->
  execute h cmd = mkCall (Thrown "Invalid heater command") h [].
Proof. intros H. unfold execute. rewrite H. reflexivity. Qed.

Lemma execute_stopped (h : t) (cmd : ActuatorCommand) :
  validateCommand (actuator h) cmd = true ->
  isEmergencyStopped (actuator h) = true ->
  execute h cmd = mkCall (Returned tt) (set_powerLevel 0.0 h) [].
Proof. intros Hv Hs. unfold execute. rewrite Hv, Hs. reflexivity. Qed.

Lemma execute_dispatch (h : t) (cmd : ActuatorCommand) :
  validateCommand (actuator h) cmd = true ->
  isEmergencyStopped (actuator h) = false ->
  outcome (execute h cmd) = Returned tt /\
  getPowerLevel (self (execute h cmd)) =
    (let maxChange := maxRate (limits_ (actuator h)) * 0.01 in
     if maxChange <? abs (value cmd - powerLevel_ h)
     then powerLevel_ h + (if powerLevel_ h <? value cmd then maxChange else - maxChange)
     else value cmd).
Proof.
  intros Hv Hs. unfold execute. rewrite Hv, Hs. cbn zeta. simpl negb. cbv iota.
  split; [reflexivity|].
  destruct (maxRate (limits_ (actuator h)) * 0.01 <? abs (value cmd - powerLevel_ h));
    reflexivity.
Qed.

Lemma MockActuator_execute_invalid (m : MockActuator.t) (cmd : ActuatorCommand) :
  validateCommand (MockActuator.actuator m) cmd = false ->
  MockActuator.execute m cmd = mkCall (Thrown "Invalid command") m [].
Proof. intros H. unfold MockActuator.execute. rewrite H. reflexivity. Qed.

End Interlock.

(** ** C6: the range check *)

(** C6. For every command whose value lies outside the configured
    [minValue, maxValue], [validateCommand] returns invalid and [execute]
    (of the heater and of the mock actuator) raises an error instead of
    dispatching, leaving the actuator as it was; for every command whose
    value lies inside the range, validation succeeds. *)
Theorem C6_range_check (cmd : ActuatorCommand) :
  (forall a : ActuatorModule,
      out_of_range (limits_ a) (value cmd) -> validateCommand a cmd = false) /\
  (forall a : ActuatorModule,
      in_range (limits_ a) (value cmd) -> validateCommand a cmd = true) /\
  (forall h : HeaterActuator.t,
      out_of_range (limits_ (HeaterActuator.actuator h)) (value cmd) ->
      HeaterActuator.execute h cmd = mkCall (Thrown "Invalid heater command") h []) /\
  (forall m : MockActuator.t,
      out_of_range (limits_ (MockActuator.actuator m)) (value cmd) ->
      MockActuator.execute m cmd = mkCall (Thrown "Invalid command") m []).
Proof.
  repeat split.
  - intros a. apply validateCommand_out_of_range.
  - intros a. apply validateCommand_in_range.
  - intros h H. apply execute_invalid, validateCommand_out_of_range, H.
  - intros m H. apply MockActuator_execute_invalid, validateCommand_out_of_range, H.
Qed.

(** The heater, as constructed, refuses a command of 150%. *)
Lemma C6_range_check_witness :
  HeaterActuator.execute HeaterActuator.ctor (ActuatorCommand_ctor "heater" 150.0)
  = mkCall (Thrown "Invalid heater command") HeaterActuator.ctor [].
Proof.
  apply (proj1 (proj2 (proj2 (C6_range_check (ActuatorCommand_ctor "heater" 150.0))))).
  right. reflexivity.
Defined.

(** ** C10: validation comes before the emergency-stop check *)

(** C10. [execute] checks the command before the emergency-stop flag: for
    every command whose value is outside the configured range it raises an
    error and leaves the actuator (power level, last dispatched value)
    unchanged, also when the emergency-stop flag is set; the actuator is not
    driven to its zero state. *)
Theorem C10_validation_before_emergency_stop
    (h : HeaterActuator.t) (m : MockActuator.t) (cmd : ActuatorCommand) (stop : bool) :
  (out_of_range (limits_ (HeaterActuator.actuator h)) (value cmd) ->
   HeaterActuator.execute (HeaterActuator.setEmergencyStop stop h) cmd
     = mkCall (Thrown "Invalid heater command") (HeaterActuator.setEmergencyStop stop h) [] /\
   HeaterActuator.getPowerLevel
       (self (HeaterActuator.execute (HeaterActuator.setEmergencyStop stop h) cmd))
     = HeaterActuator.getPowerLevel h) /\
  (out_of_range (limits_ (MockActuator.actuator m)) (value cmd) ->
   MockActuator.execute (MockActuator.setEmergencyStop stop m) cmd
     = mkCall (Thrown "Invalid command") (MockActuator.setEmergencyStop stop m) [] /\
   MockActuator.getLastCommand
       (self (MockActuator.execute (MockActuator.setEmergencyStop stop m) cmd))
     = MockActuator.getLastCommand m).
Proof.
  split; intros H.
  - rewrite execute_invalid; [auto|].
    apply validateCommand_out_of_range. exact H.
  - rewrite MockActuator_execute_invalid; [auto|].
    apply validateCommand_out_of_range. exact H.
Qed.

(** With the flag set and the power level at 0.1, a command of 150% raises
    and the power level stays at 0.1. *)
Lemma C10_validation_before_emergency_stop_witness :
  isEmergencyStopped (HeaterActuator.actuator HeaterActuator.warm_stopped) = true /\
  outcome (HeaterActuator.execute HeaterActuator.warm_stopped
             (ActuatorCommand_ctor "heater" 150.0)) = Thrown "Invalid heater command" /\
  HeaterActuator.getPowerLevel
    (self (HeaterActuator.execute HeaterActuator.warm_stopped
             (ActuatorCommand_ctor "heater" 150.0))) = 0.1.
Proof.
  split; [reflexivity|].
  destruct (C10_validation_before_emergency_stop HeaterActuator.warm MockActuator.ctor
              (ActuatorCommand_ctor "heater" 150.0) true) as [H _].
  destruct (H (or_intror eq_refl)) as [H1 H2].
  split.
  - exact (f_equal outcome H1).
  - exact H2.
Defined.

(** ** C1: emergency stop *)

(** A command outside the range, issued while the emergency-stop flag is
    set, raises and leaves the power level at 0.1 instead of zeroing it. *)
Lemma C1_out_of_range_while_stopped :
  isEmergencyStopped (HeaterActuator.actuator HeaterActuator.warm_stopped) = true /\
  HeaterActuator.execute HeaterActuator.warm_stopped (ActuatorCommand_ctor "heater" 150.0)
    = mkCall (Thrown "Invalid heater command") HeaterActuator.warm_stopped [] /\
  HeaterActuator.getPowerLevel HeaterActuator.warm_stopped = 0.1 /\
  (0.1 =? 0.0) = false.
Proof. repeat split. Qed.

(** C1 (amended). For every command that passes validation (its value lies
    within the configured range), [execute] called while the emergency-stop
    flag is set returns normally and leaves the power level at 0, whatever
    the value in the command; nothing is written and no metrics are
    updated. *)
Theorem C1_emergency_stop_zeroes_power (h : HeaterActuator.t) (cmd : ActuatorCommand) :
  isEmergencyStopped (HeaterActuator.actuator h) = true ->
  in_range (limits_ (HeaterActuator.actuator h)) (value cmd) ->
  HeaterActuator.execute h cmd
    = mkCall (Returned tt) (HeaterActuator.set_powerLevel 0.0 h) [] /\
  HeaterActuator.getPowerLevel (self (HeaterActuator.execute h cmd)) = 0.0.
Proof.
  intros Hs Hr. apply validateCommand_in_range in Hr.
  rewrite (execute_stopped h cmd Hr Hs). split; reflexivity.
Qed.

(** The stopped heater at power 0.1 receives a command of 75%. *)
Lemma C1_emergency_stop_zeroes_power_witness :
  HeaterActuator.getPowerLevel
    (self (HeaterActuator.execute HeaterActuator.warm_stopped
             (ActuatorCommand_ctor "heater" 75.0))) = 0.0.
Proof.
  apply (C1_emergency_stop_zeroes_power HeaterActuator.warm_stopped
           (ActuatorCommand_ctor "heater" 75.0)).
  - reflexivity.
  - split; reflexivity.
Defined.

(** ** C2: rate limiting *)

(** The setpoints 0, 100, 0 give the power levels 0, 0.1, 0: the second
    step moves by maxRate * 0.01 = 0.1, not by 10. *)
Lemma C2_setpoints_step_is_one_tenth :
  fst (HeaterActuator.run HeaterActuator.ctor HeaterActuator.setpoints) = [0.0; 0.1; 0.0] /\
  (0.1 =? 10.0) = false.
Proof. split; reflexivity. Qed.

(** C2 (amended). For every in-range command, issued while the module is not
    emergency-stopped, whose distance from the current power level exceeds
    maxRate * 0.01, the dispatched value is the current level plus or minus
    maxRate * 0.01, not the requested value; with limits {0, 100, 10} and
    setpoints 0, 100, 0 the dispatched values are 0, 0.1, 0. *)
Theorem C2_rate_limited_dispatch (h : HeaterActuator.t) (cmd : ActuatorCommand) :
  in_range (limits_ (HeaterActuator.actuator h)) (value cmd) ->
  isEmergencyStopped (HeaterActuator.actuator h) = false ->
  (maxRate (limits_ (HeaterActuator.actuator h)) * 0.01
     <? abs (value cmd - HeaterActuator.getPowerLevel h)) = true ->
  (outcome (HeaterActuator.execute h cmd) = Returned tt /\
   HeaterActuator.getPowerLevel (self (HeaterActuator.execute h cmd))
     = HeaterActuator.getPowerLevel h
       + (if HeaterActuator.getPowerLevel h <? value cmd
          then maxRate (limits_ (HeaterActuator.actuator h)) * 0.01
          else - (maxRate (limits_ (HeaterActuator.actuator h)) * 0.01))) /\
  fst (HeaterActuator.run HeaterActuator.ctor HeaterActuator.setpoints) = [0.0; 0.1; 0.0].
Proof.
  intros Hr Hs Hd. apply validateCommand_in_range in Hr.
  destruct (execute_dispatch h cmd Hr Hs) as [Ho Hp].
  split; [split; [exact Ho|] | reflexivity].
  rewrite Hp. cbv zeta. unfold HeaterActuator.getPowerLevel in Hd. rewrite Hd. reflexivity.
Qed.

(** From power 0 a command of 100% moves the heater to 0.1. *)
Lemma C2_rate_limited_dispatch_witness :
  HeaterActuator.getPowerLevel
    (self (HeaterActuator.execute HeaterActuator.ctor (ActuatorCommand_ctor "heater" 100.0)))
  = 0.0 + 10.0 * 0.01.
Proof.
  apply (C2_rate_limited_dispatch HeaterActuator.ctor (ActuatorCommand_ctor "heater" 100.0)).
  - split; reflexivity.
  - reflexivity.
  - reflexivity.
Defined.

(** ** C3: [isSafeToExecute] *)

(** With maxValue set to 50, a command of 46 is above 90% of maxValue, is
    safe to execute, and no warning is written: the warning threshold is the
    constant 90.0. *)
Lemma C3_no_warning_below_ninety :
  maxValue (limits_ (HeaterActuator.actuator HeaterActuator.half_range)) = 50.0 /\
  (0.9 * 50.0 <? 46.0) = true /\
  HeaterActuator.isSafeToExecute HeaterActuator.half_range (ActuatorCommand_ctor "heater" 46.0)
    = mkCall (Returned true) HeaterActuator.half_range [].
Proof. repeat split. Qed.

(** C3 (amended). For every command, [isSafeToExecute] returns true if and
    only if the module is not emergency-stopped and the command validates
    (the heater's override and the base class's function alike), and it
    leaves the module unchanged; a command whose value is above 90.0
    (90% of the maxValue of 100 that the constructor sets) is reported by a
    warning, which does not change the result: the call still returns true
    for it when the module is not emergency-stopped and the command
    validates. *)
Theorem C3_isSafeToExecute (h : HeaterActuator.t) (cmd : ActuatorCommand) :
  (outcome (HeaterActuator.isSafeToExecute h cmd) = Returned true <->
   isEmergencyStopped (HeaterActuator.actuator h) = false /\
   validateCommand (HeaterActuator.actuator h) cmd = true) /\
  (ActuatorModule_isSafeToExecute (HeaterActuator.actuator h) cmd = true <->
   isEmergencyStopped (HeaterActuator.actuator h) = false /\
   validateCommand (HeaterActuator.actuator h) cmd = true) /\
  (exists b, outcome (HeaterActuator.isSafeToExecute h cmd) = Returned b) /\
  self (HeaterActuator.isSafeToExecute h cmd) = h /\
  effects (HeaterActuator.isSafeToExecute h cmd)
    = (if 90.0 <? value cmd then [CoutHighPowerWarning (value cmd)] else []) /\
  (0.9 * maxValue HeaterActuator.physical_limits =? 90.0) = true.
Proof.
  unfold HeaterActuator.isSafeToExecute, ActuatorModule_isSafeToExecute,
    isEmergencyStopped. simpl.
  split; [|split; [|repeat split; eauto]]; split.
  - intros [= Hb]. apply andb_true_iff in Hb. destruct Hb as [Hs Hv].
    apply negb_true_iff in Hs. auto.
  - intros [-> ->]. reflexivity.
  - intros Hb. apply andb_true_iff in Hb. destruct Hb as [Hs Hv].
    apply negb_true_iff in Hs. auto.
  - intros [-> ->]. reflexivity.
Qed.

(** * Further properties of the code *)

(** ** NaN and the order of binary64 values *)

Section FloatNaN.

Lemma SFcompare_None (x y : spec_float) :
  SFcompare x y = None <-> x = S754_nan \/ y = S754_nan.
Proof.
  destruct x as [[]|[]| |[] mx ex], y as [[]|[]| |[] my ey]; simpl;
    split; intros H; try discriminate; auto; destruct H; discriminate.
Qed.

Lemma SFcompare_refl (x : spec_float) :
  x <> S754_nan -> SFcompare x x = Some Eq.
Proof.
  intros Hx. destruct (SFcompare x x) as [c|] eqn:E.
  - pose proof (SFcompare_antisym x x) as H. rewrite E in H. simpl in H.
    destruct c; try discriminate. reflexivity.
  - apply SFcompare_None in E. tauto.
Qed.

(** [is_nan] recognises exactly the NaN of the specification. *)
Lemma is_nan_SF (x : float) : is_nan x = true <-> Prim2SF x = S754_nan.
Proof.
  unfold is_nan. rewrite FloatAxioms.eqb_spec. unfold SFeqb. split.
  - intros H. destruct (Prim2SF x) eqn:E; try reflexivity;
      rewrite SFcompare_refl in H by discriminate; discriminate.
  - intros ->. reflexivity.
Qed.

Lemma is_nan_false_SF (x : float) : is_nan x = false <-> Prim2SF x <> S754_nan.
Proof.
  rewrite <- is_nan_SF. destruct (is_nan x); split; congruence.
Qed.

(** A comparison with a NaN is false. *)
Lemma ltb_nan_l (x y : float) : is_nan x = true -> (x <? y) = false.
Proof. rewrite is_nan_SF, ltb_spec. intros ->. reflexivity. Qed.

Lemma ltb_nan_r (x y : float) : is_nan y = true -> (x <? y) = false.
Proof.
  rewrite is_nan_SF, ltb_spec. intros ->. unfold SFltb.
  now destruct (Prim2SF x) as [[]|[]| |[] mx ex].
Qed.

Lemma ltb_irrefl (x : float) : (x <? x) = false.
Proof.
  destruct (x <? x) eqn:E; [|reflexivity].
  pose proof (ltb_leb_false _ _ E) as H.
  rewrite ltb_spec in E. rewrite leb_spec in H. unfold SFltb, SFleb in *.
  destruct (SFcompare (Prim2SF x) (Prim2SF x)) as [[]|]; discriminate.
Qed.

(** Two values that are not NaN are comparable. *)
Lemma not_ltb_leb (x y : float) :
  is_nan x = false -> is_nan y = false -> (x <? y) = false -> (y <=? x) = true.
Proof.
  rewrite !is_nan_false_SF, ltb_spec, leb_spec. unfold SFltb, SFleb.
  intros Hx Hy. rewrite (SFcompare_antisym (Prim2SF x) (Prim2SF y)).
  destruct (SFcompare (Prim2SF x) (Prim2SF y)) as [[]|] eqn:E; simpl;
    try reflexivity; try discriminate.
  apply SFcompare_None in E. tauto.
Qed.

(** NaN propagates through the arithmetic operations. *)
Lemma add_nan_l (x y : float) : is_nan x = true -> is_nan (x + y) = true.
Proof. rewrite !is_nan_SF, add_spec. intros ->. reflexivity. Qed.

Lemma add_nan_r (x y : float) : is_nan y = true -> is_nan (x + y) = true.
Proof.
  rewrite !is_nan_SF, add_spec. intros ->.
  now destruct (Prim2SF x) as [[]|[]| |[] mx ex].
Qed.

Lemma mul_nan_r (x y : float) : is_nan y = true -> is_nan (x * y) = true.
Proof.
  rewrite !is_nan_SF, mul_spec. intros ->.
  now destruct (Prim2SF x) as [[]|[]| |[] mx ex].
Qed.

(** [std::clamp] hands a NaN through. *)
Lemma clamp_nan (v lo hi : float) : is_nan v = true -> clamp v lo hi = v.
Proof.
  intros Hv. unfold clamp. rewrite (ltb_nan_l v lo Hv), (ltb_nan_r hi v Hv). reflexivity.
Qed.

(** With [lo <= hi], the result of [std::clamp] is never below [lo] nor
    above [hi]. *)
Lemma clamp_bounds (v lo hi : float) :
  (hi <? lo) = false ->
  (clamp v lo hi <? lo) = false /\ (hi <? clamp v lo hi) = false.
Proof.
  intros Hlh. unfold clamp.
  destruct (v <? lo) eqn:E1; [split; [apply ltb_irrefl | exact Hlh]|].
  destruct (hi <? v) eqn:E2; [split; [exact Hlh | apply ltb_irrefl]|].
  split; assumption.
Qed.

End FloatNaN.

(** ** C9: the default limits *)

Section DefaultLimits.







End DefaultLimits.



(** ** The PID controller *)

Section PID.

Import PIDController.

(** [calculate] leaves the gains, the integral limit and the filter
    coefficient alone. *)
Lemma calculate_parameters (c : t) (sp meas dt : float) :
  let c1 := snd (calculate c sp meas dt) in
  kp_ c1 = kp_ c /\ ki_ c1 = ki_ c /\ kd_ c1 = kd_ c /\
  integralLimit_ c1 = integralLimit_ c /\ alpha_ c1 = alpha_ c.
Proof. cbv zeta. unfold calculate. cbn. auto. Qed.

Lemma calculate_all_parameters (samples : list Sample) (c : t) :
  let cn := snd (calculate_all c samples) in
  kp_ cn = kp_ c /\ ki_ cn = ki_ c /\ kd_ cn = kd_ c /\
  integralLimit_ cn = integralLimit_ c /\ alpha_ cn = alpha_ c.
Proof.
  cbv zeta. revert c. induction samples as [|x rest IH]; intros c; [cbn; auto|].
  cbn [calculate_all].
  destruct (calculate c (setpoint x) (measurement x) (dt x)) as [out c1] eqn:E.
  specialize (IH c1). destruct (calculate_all c1 rest) as [outs cn]. cbn [snd] in *.
  pose proof (calculate_parameters c (setpoint x) (measurement x) (dt x)) as H.
  cbv zeta in H. rewrite E in H. cbn [snd] in H.
  destruct IH as (-> & -> & -> & -> & ->). exact H.
Qed.

(** The integral after a call, as the source computes it. *)
Lemma calculate_integral (c : t) (sp meas dt : float) :
  integral_ (snd (calculate c sp meas dt))
  = clamp (integral_ c + (sp - meas) * dt) (- integralLimit_ c) (integralLimit_ c).
Proof. reflexivity. Qed.

Lemma calculate_all_integral (samples : list Sample) (c : t) :
  integralLimit_ c = 50.0 ->
  (integral_ c <? -50.0) = false /\ (50.0 <? integral_ c) = false ->
  (integral_ (snd (calculate_all c samples)) <? -50.0) = false /\
  (50.0 <? integral_ (snd (calculate_all c samples))) = false.
Proof.
  revert c. induction samples as [|x rest IH]; intros c Hl Hi; [exact Hi|].
  cbn [calculate_all].
  pose proof (calculate_parameters c (setpoint x) (measurement x) (dt x)) as Hp.
  pose proof (calculate_integral c (setpoint x) (measurement x) (dt x)) as Hc.
  cbv zeta in Hp.
  destruct (calculate c (setpoint x) (measurement x) (dt x)) as [out c1].
  cbn [snd] in Hp, Hc. destruct Hp as (_ & _ & _ & Hl1 & _).
  specialize (IH c1). destruct (calculate_all c1 rest) as [outs cn]. cbn [snd] in *.
  apply IH; [congruence|].
  rewrite Hc, Hl. apply clamp_bounds. reflexivity.
Qed.

(** One call on a controller holding a NaN. *)
Lemma calculate_nan (c : t) (sp meas dt : float) :
  is_nan (integral_ c) = true \/ is_nan (lastDerivative_ c) = true ->
  is_nan (fst (calculate c sp meas dt)) = true /\
  (is_nan (integral_ (snd (calculate c sp meas dt))) = true \/
   is_nan (lastDerivative_ (snd (calculate c sp meas dt))) = true).
Proof.
  unfold calculate. cbn [fst snd integral_ lastDerivative_]. intros [Hi|Hd].
  - assert (Hc : is_nan (clamp (integral_ c + (sp - meas) * dt)
                                (- integralLimit_ c) (integralLimit_ c)) = true).
    { rewrite clamp_nan; apply add_nan_l; exact Hi. }
    split; [|left; exact Hc].
    rewrite clamp_nan; apply add_nan_l, add_nan_r, mul_nan_r; exact Hc.
  - assert (Hc : is_nan (alpha_ c * ((sp - meas - lastError_ c) / dt)
                         + (1.0 - alpha_ c) * lastDerivative_ c) = true).
    { apply add_nan_r, mul_nan_r. exact Hd. }
    split; [|right; exact Hc].
    rewrite clamp_nan; apply add_nan_r, mul_nan_r; exact Hc.
Qed.

(** A value clamped to [0, 100] is, unless a NaN, within the limits the
    heater's constructor sets. *)
Lemma clamp_within_physical_limits (v : float) :
  is_nan (clamp v 0.0 100.0) = false ->
  in_range HeaterActuator.physical_limits (clamp v 0.0 100.0).
Proof.
  intros Hn. destruct (clamp_bounds v 0.0 100.0 eq_refl) as [Hlo Hhi]. split.
  - apply not_ltb_leb; [exact Hn | reflexivity | exact Hlo].
  - apply not_ltb_leb; [reflexivity | exact Hn | exact Hhi].
Qed.

End PID.

(** X1. Whatever the controller's state and the arguments, the output of
    [calculate] is never below 0 nor above 100; unless it is a NaN it lies
    within the limits the heater's constructor sets. *)
Theorem X1_pid_output_within_heater_limits
    (c : PIDController.t) (sp meas dt : float) :
  (fst (PIDController.calculate c sp meas dt) <? 0.0) = false /\
  (100.0 <? fst (PIDController.calculate c sp meas dt)) = false /\
  (is_nan (fst (PIDController.calculate c sp meas dt)) = false ->
   in_range HeaterActuator.physical_limits (fst (PIDController.calculate c sp meas dt))).
Proof.
  unfold PIDController.calculate. cbn [fst].
  set (v := _ + _ + _).
  destruct (clamp_bounds v 0.0 100.0 eq_refl) as [Hlo Hhi].
  split; [exact Hlo | split; [exact Hhi|]].
  apply clamp_within_physical_limits.
Qed.

(** X2. Anti-windup: after any sequence of [calculate] calls on a
    constructed controller the integral is never below -50 nor above 50. *)
Theorem X2_pid_integral_stays_within_limit
    (kp ki kd : float) (samples : list PIDController.Sample) :
  (PIDController.integral_
     (snd (PIDController.calculate_all (PIDController.ctor kp ki kd) samples)) <? -50.0) = false /\
  (50.0 <? PIDController.integral_
     (snd (PIDController.calculate_all (PIDController.ctor kp ki kd) samples))) = false.
Proof. apply calculate_all_integral; [reflexivity | split; reflexivity]. Qed.

(** X3. After any sequence of [calculate] calls, [reset] puts the controller
    back into the state its constructor gave it: the gains are kept and the
    integral, the last error and the last derivative are zero. *)
Theorem X3_pid_reset_restores_constructed_state
    (kp ki kd : float) (samples : list PIDController.Sample) :
  PIDController.reset
    (snd (PIDController.calculate_all (PIDController.ctor kp ki kd) samples))
  = PIDController.ctor kp ki kd.
Proof.
  pose proof (calculate_all_parameters samples (PIDController.ctor kp ki kd)) as H.
  cbv zeta in H. destruct H as (H1 & H2 & H3 & H4 & H5).
  unfold PIDController.reset. rewrite H1, H2, H3, H4, H5. reflexivity.
Qed.

(** X4. A NaN in the integral or in the filtered derivative is never
    recovered from by [calculate]: every output of every later call is a
    NaN, whatever the arguments. *)
Theorem X4_pid_nan_is_sticky (samples : list PIDController.Sample) (c : PIDController.t) :
  is_nan (PIDController.integral_ c) = true \/
  is_nan (PIDController.lastDerivative_ c) = true ->
  Forall (fun out => is_nan out = true) (fst (PIDController.calculate_all c samples)).
Proof.
  revert c. induction samples as [|x rest IH]; intros c Hc; [constructor|].
  cbn [PIDController.calculate_all].
  pose proof (calculate_nan c (PIDController.setpoint x) (PIDController.measurement x)
                (PIDController.dt x) Hc) as [Ho Hn].
  destruct (PIDController.calculate c _ _ _) as [out c1]. cbn [fst snd] in Ho, Hn.
  specialize (IH c1 Hn). destruct (PIDController.calculate_all c1 rest) as [outs cn].
  constructor; assumption.
Qed.

(** A call with dt = 0 and no error divides 0 by 0; the two later outputs
    are NaN. *)
Lemma X4_pid_nan_is_sticky_witness :
  Forall (fun out => is_nan out = true)
    (fst (PIDController.calculate_all
            (snd (PIDController.calculate (PIDController.ctor 2.0 0.5 0.1) 25.0 25.0 0.0))
            [PIDController.mkSample 25.0 20.0 0.02; PIDController.mkSample 25.0 30.0 0.02])).
Proof.
  apply X4_pid_nan_is_sticky. right. reflexivity.
Defined.

(** ** The heater driven by the controller *)

(** X5. In the loop of [main] the controller's output, unless it is a NaN,
    is always accepted by a heater that has the constructor's limits:
    [execute] returns normally. *)
Theorem X5_control_iteration_never_rejected
    (pid : PIDController.t) (heater : HeaterActuator.t) (sp temperature dt : float) :
  limits_ (HeaterActuator.actuator heater) = HeaterActuator.physical_limits ->
  is_nan (fst (PIDController.calculate pid sp temperature dt)) = false ->
  outcome (snd (control_iteration pid heater sp temperature dt)) = Returned tt.
Proof.
  intros Hl Hn. unfold control_iteration.
  assert (Hr : in_range HeaterActuator.physical_limits
                 (fst (PIDController.calculate pid sp temperature dt))).
  { revert Hn. unfold PIDController.calculate. cbn [fst].
    apply clamp_within_physical_limits. }
  destruct (PIDController.calculate pid sp temperature dt) as [out pid1]. cbn [fst snd] in *.
  assert (Hv : validateCommand (HeaterActuator.actuator heater)
                 (ActuatorCommand_ctor "heater" out) = true).
  { apply validateCommand_in_range. rewrite Hl. exact Hr. }
  unfold HeaterActuator.execute. rewrite Hv. cbn.
  destruct (isEmergencyStopped (HeaterActuator.actuator heater)); reflexivity.
Qed.

(** The constructed heater and controller, set point 25, temperature 20. *)
Lemma X5_control_iteration_never_rejected_witness :
  outcome (snd (control_iteration (PIDController.ctor 2.0 0.5 0.1) HeaterActuator.ctor
                  25.0 20.0 0.02)) = Returned tt.
Proof.
  apply X5_control_iteration_never_rejected; reflexivity.
Defined.

(** ** The heater while stopped *)

(** Neither [execute] nor [initialize] touches the limits or the
    emergency-stop flag. *)
Lemma execute_keeps_actuator (h : HeaterActuator.t) (cmd : ActuatorCommand) :
  HeaterActuator.actuator (self (HeaterActuator.execute h cmd)) = HeaterActuator.actuator h.
Proof.
  unfold HeaterActuator.execute.
  destruct (validateCommand (HeaterActuator.actuator h) cmd); [|reflexivity]. cbn.
  destruct (isEmergencyStopped (HeaterActuator.actuator h)); [reflexivity|]. cbn.
  destruct (_ <? _); reflexivity.
Qed.

(** X7. While the emergency-stop flag is set, every command of a sequence
    that [execute] completes leaves the power level at 0, and the sequence
    leaves the flag set and the limits as they were: no command clears the
    stop. *)
Theorem X7_stopped_heater_stays_at_zero
    (cmds : list ActuatorCommand) (h : HeaterActuator.t) :
  isEmergencyStopped (HeaterActuator.actuator h) = true ->
  Forall (fun p => p = 0.0) (fst (HeaterActuator.run h cmds)) /\
  HeaterActuator.actuator (snd (HeaterActuator.run h cmds)) = HeaterActuator.actuator h.
Proof.
  revert h. induction cmds as [|cmd rest IH]; intros h Hs; [split; [constructor|reflexivity]|].
  cbn [HeaterActuator.run].
  pose proof (execute_keeps_actuator h cmd) as Hk.
  destruct (validateCommand (HeaterActuator.actuator h) cmd) eqn:Hv.
  - rewrite (execute_stopped h cmd Hv Hs) in *. cbn [outcome self] in *.
    destruct (IH (HeaterActuator.set_powerLevel 0.0 h)) as [IH1 IH2]; [exact Hs|].
    destruct (HeaterActuator.run (HeaterActuator.set_powerLevel 0.0 h) rest) as [ps hn].
    cbn [fst snd] in *. split; [constructor; [reflexivity | exact IH1] | exact IH2].
  - rewrite (execute_invalid h cmd Hv). cbn. split; [constructor | reflexivity].
Qed.

(** The stopped heater at power 0.1 receives 75, 20 and then 150. *)
Lemma X7_stopped_heater_stays_at_zero_witness :
  fst (HeaterActuator.run HeaterActuator.warm_stopped
         [ActuatorCommand_ctor "heater" 75.0; ActuatorCommand_ctor "heater" 20.0;
          ActuatorCommand_ctor "heater" 150.0]) = [0.0; 0.0] /\
  Forall (fun p => p = 0.0)
    (fst (HeaterActuator.run HeaterActuator.warm_stopped
            [ActuatorCommand_ctor "heater" 75.0; ActuatorCommand_ctor "heater" 20.0;
             ActuatorCommand_ctor "heater" 150.0])).
Proof.
  split; [reflexivity|].
  apply (X7_stopped_heater_stays_at_zero
           [ActuatorCommand_ctor "heater" 75.0; ActuatorCommand_ctor "heater" 20.0;
            ActuatorCommand_ctor "heater" 150.0] HeaterActuator.warm_stopped).
  reflexivity.
Defined.

(** X8. [isSafeToExecute] predicts what [execute] does: it returns true
    exactly when [execute] returns normally having dispatched a power level
    (written it out and updated the metrics); when it returns false,
    [execute] either raises or zeroes the power level without doing so. *)
Theorem X8_safe_iff_dispatched (h : HeaterActuator.t) (cmd : ActuatorCommand) :
  (outcome (HeaterActuator.isSafeToExecute h cmd) = Returned true <->
   outcome (HeaterActuator.execute h cmd) = Returned tt /\
   In (UpdateMetrics 0.001) (effects (HeaterActuator.execute h cmd))) /\
  (outcome (HeaterActuator.isSafeToExecute h cmd) = Returned false ->
   HeaterActuator.execute h cmd = mkCall (Thrown "Invalid heater command") h [] \/
   HeaterActuator.execute h cmd
     = mkCall (Returned tt) (HeaterActuator.set_powerLevel 0.0 h) []).
Proof.
  unfold HeaterActuator.isSafeToExecute, HeaterActuator.execute. cbn [outcome].
  destruct (validateCommand (HeaterActuator.actuator h) cmd);
    destruct (isEmergencyStopped (HeaterActuator.actuator h)); cbn; split; try split;
    solve [ discriminate
          | intros [_ []]
          | intros [H _]; discriminate H
          | intros _; reflexivity
          | intros _; split; [reflexivity | right; left; reflexivity]
          | intros _; left; reflexivity
          | intros _; right; reflexivity ].
Qed.

(** ** The mock modules *)

Section Mocks.

Lemma wrap_int_add (a b : Z) : wrap_int (wrap_int a + b) = wrap_int (a + b).
Proof.
  unfold wrap_int. f_equal.
  replace ((a + 2 ^ 31) mod 2 ^ 32 - 2 ^ 31 + b + 2 ^ 31)%Z
    with ((a + 2 ^ 31) mod 2 ^ 32 + b)%Z by ring.
  rewrite Z.add_mod_idemp_l by discriminate. f_equal. ring.
Qed.

Lemma wrap_int_small (a : Z) : (- 2 ^ 31 <= a < 2 ^ 31)%Z -> wrap_int a = a.
Proof.
  intros H. unfold wrap_int.
  change (2 ^ 32)%Z with (2 ^ 31 + 2 ^ 31)%Z.
  set (p := (2 ^ 31)%Z) in *. rewrite Z.mod_small; lia.
Qed.

Lemma wrap_int_range (a : Z) : (- 2 ^ 31 <= wrap_int a < 2 ^ 31)%Z.
Proof.
  unfold wrap_int.
  pose proof (Z.mod_pos_bound (a + 2 ^ 31) (2 ^ 32) eq_refl) as H.
  set (r := ((a + 2 ^ 31) mod 2 ^ 32)%Z) in *.
  change (2 ^ 32)%Z with (2 ^ 31 + 2 ^ 31)%Z in H.
  set (p := (2 ^ 31)%Z) in *. lia.
Qed.

(** [MockActuator::execute] on an accepted command. *)
Lemma MockActuator_execute_accepted (m : MockActuator.t) (cmd : ActuatorCommand) :
  validateCommand (MockActuator.actuator m) cmd = true ->
  MockActuator.execute m cmd
  = mkCall (Returned tt)
      (MockActuator.mk (MockActuator.actuator m) (value cmd)
         (wrap_int (MockActuator.executeCount_ m + 1))) [].
Proof. intros H. unfold MockActuator.execute. rewrite H. reflexivity. Qed.

End Mocks.

(** X6. The mock actuator's [execute] does not look at the emergency-stop
    flag: with the flag set to either value the call ends the same way and
    makes the same changes, so an accepted command is dispatched even while
    the module is emergency-stopped. *)
Theorem X6_mock_actuator_ignores_emergency_stop
    (stop : bool) (m : MockActuator.t) (cmd : ActuatorCommand) :
  MockActuator.execute (MockActuator.setEmergencyStop stop m) cmd
  = mkCall (outcome (MockActuator.execute m cmd))
           (MockActuator.setEmergencyStop stop (self (MockActuator.execute m cmd)))
           (effects (MockActuator.execute m cmd)) /\
  (validateCommand (MockActuator.actuator m) cmd = true ->
   MockActuator.getLastCommand
     (self (MockActuator.execute (MockActuator.setEmergencyStop true m) cmd)) = value cmd).
Proof.
  unfold MockActuator.execute, MockActuator.setEmergencyStop.
  change (validateCommand (MockActuator.actuator (MockActuator.mk _ _ _)) cmd)
    with (validateCommand (MockActuator.actuator m) cmd).
  destruct (validateCommand (MockActuator.actuator m) cmd); split;
    try reflexivity; discriminate.
Qed.

(** X9. A sequence of commands that all pass validation is executed to the
    end by the mock actuator: no call raises, the execute count goes up by
    the number of commands (wrapping as a 32-bit int), the last command is
    the value of the final one, and the limits and flags are untouched. *)
Theorem X9_mock_actuator_counts_accepted_commands
    (cmds : list ActuatorCommand) (m : MockActuator.t) :
  Forall (fun cmd => validateCommand (MockActuator.actuator m) cmd = true) cmds ->
  (- 2 ^ 31 <= MockActuator.getExecuteCount m < 2 ^ 31)%Z ->
  fst (MockActuator.run m cmds) = Returned tt /\
  MockActuator.actuator (snd (MockActuator.run m cmds)) = MockActuator.actuator m /\
  MockActuator.getExecuteCount (snd (MockActuator.run m cmds))
    = wrap_int (MockActuator.getExecuteCount m + Z.of_nat (length cmds)) /\
  MockActuator.getLastCommand (snd (MockActuator.run m cmds))
    = from_option value (MockActuator.getLastCommand m) (last cmds).
Proof.
  unfold MockActuator.getExecuteCount, MockActuator.getLastCommand.
  revert m. induction cmds as [|cmd rest IH]; intros m Hall Hr.
  - cbn. repeat split. rewrite Z.add_0_r, wrap_int_small; [reflexivity | exact Hr].
  - apply Forall_cons in Hall. destruct Hall as [Hv Hall].
    cbn [MockActuator.run]. rewrite (MockActuator_execute_accepted m cmd Hv).
    cbn [outcome self].
    set (m1 := MockActuator.mk _ _ _).
    destruct (IH m1) as (H1 & H2 & H3 & H4); [exact Hall | apply wrap_int_range |].
    split; [exact H1 | split; [exact H2 | split]].
    + rewrite H3. subst m1. cbn [MockActuator.executeCount_].
      rewrite wrap_int_add. f_equal. cbn [length]. lia.
    + rewrite H4. subst m1. cbn [MockActuator.lastCommand_].
      rewrite last_cons. destruct (last rest); reflexivity.
Qed.


(** Two accepted commands on the constructed mock. *)
Lemma X9_mock_actuator_counts_accepted_commands_witness :
  MockActuator.getExecuteCount
    (snd (MockActuator.run MockActuator.ctor
            [ActuatorCommand_ctor "test" 50.0; ActuatorCommand_ctor "test" 60.0]))
  = wrap_int (0 + 2) /\
  MockActuator.getLastCommand
    (snd (MockActuator.run MockActuator.ctor
            [ActuatorCommand_ctor "test" 50.0; ActuatorCommand_ctor "test" 60.0]))
  = 60.0.
Proof.
  destruct (X9_mock_actuator_counts_accepted_commands
              [ActuatorCommand_ctor "test" 50.0; ActuatorCommand_ctor "test" 60.0]
              MockActuator.ctor) as (_ & _ & Hc & Hl).
  - repeat constructor.
  - split; [discriminate | reflexivity].
  - split; [exact Hc | exact Hl].
Defined.

(** X10. The first rejected command ends the mock actuator's sequence with
    the exception: the commands after it are not executed, and the count
    and the last command are those of the accepted commands before it. *)
Theorem X10_mock_actuator_stops_at_rejected_command
    (good rest : list ActuatorCommand) (bad : ActuatorCommand) (m : MockActuator.t) :
  Forall (fun cmd => validateCommand (MockActuator.actuator m) cmd = true) good ->
  validateCommand (MockActuator.actuator m) bad = false ->
  (- 2 ^ 31 <= MockActuator.getExecuteCount m < 2 ^ 31)%Z ->
  MockActuator.run m (good ++ bad :: rest)
  = (Thrown "Invalid command", snd (MockActuator.run m good)).
Proof.
  revert m. induction good as [|cmd good IH]; intros m Hall Hbad Hr.
  - cbn [app MockActuator.run]. rewrite (MockActuator_execute_invalid m bad Hbad). reflexivity.
  - apply Forall_cons in Hall. destruct Hall as [Hv Hall].
    cbn [app MockActuator.run]. rewrite (MockActuator_execute_accepted m cmd Hv).
    cbn [outcome self]. apply IH; [exact Hall | exact Hbad | apply wrap_int_range].
Qed.

(** The commands 50, 150, 60 of the unit test's kind: 150 is rejected and 60
    never runs. *)
Lemma X10_mock_actuator_stops_at_rejected_command_witness :
  MockActuator.run MockActuator.ctor
    ([ActuatorCommand_ctor "test" 50.0] ++
     ActuatorCommand_ctor "test" 150.0 :: [ActuatorCommand_ctor "test" 60.0])
  = (Thrown "Invalid command",
     snd (MockActuator.run MockActuator.ctor [ActuatorCommand_ctor "test" 50.0])).
Proof.
  apply X10_mock_actuator_stops_at_rejected_command.
  - repeat constructor.
  - reflexivity.
  - split; [discriminate | reflexivity].
Defined.

(** X11. [n] reads of the mock sensor return [n] readings named "test" with
    the value 42 and no unit, stamped with the successive clock readings;
    the read count goes up by [n] (wrapping as a 32-bit int) and nothing
    else of the sensor changes. *)
Theorem X11_mock_sensor_reads (clock : list Z) (s : MockSensor.t) :
  (- 2 ^ 31 <= MockSensor.getReadCount s < 2 ^ 31)%Z ->
  fst (MockSensor.read_all clock s)
    = map (SensorData.ctor "test" 42.0 NONE) clock /\
  MockSensor.getReadCount (snd (MockSensor.read_all clock s))
    = wrap_int (MockSensor.getReadCount s + Z.of_nat (length clock)) /\
  MockSensor.sensor (snd (MockSensor.read_all clock s)) = MockSensor.sensor s /\
  MockSensor.isInitialized (snd (MockSensor.read_all clock s)) = MockSensor.isInitialized s.
Proof.
  unfold MockSensor.getReadCount, MockSensor.isInitialized.
  revert s. induction clock as [|now later IH]; intros s Hr.
  - cbn. repeat split. rewrite Z.add_0_r, wrap_int_small; [reflexivity | exact Hr].
  - cbn [MockSensor.read_all MockSensor.read].
    set (s1 := MockSensor.mk _ _ _).
    destruct (IH s1) as (H1 & H2 & H3 & H4); [apply wrap_int_range|].
    destruct (MockSensor.read_all later s1) as [ds sn]. cbn [fst snd] in *.
    subst s1. cbn [MockSensor.readCount_ MockSensor.sensor MockSensor.initialized_] in *.
    repeat split; try assumption.
    + rewrite H1. reflexivity.
    + rewrite H2, wrap_int_add. f_equal. cbn [length]. lia.
Qed.

(** The unit test's sensor: one read and ten more give a count of 11. *)
Lemma X11_mock_sensor_reads_witness :
  MockSensor.getReadCount
    (snd (MockSensor.read_all (MockSensor.seq_Z_clock 11) (self (MockSensor.initialize MockSensor.ctor))))
  = 11%Z.
Proof.
  destruct (X11_mock_sensor_reads (MockSensor.seq_Z_clock 11)
              (self (MockSensor.initialize MockSensor.ctor))) as (_ & Hc & _).
  - split; [discriminate | reflexivity].
  - rewrite Hc. reflexivity.
Defined.

(** ** The class hierarchy behind the typed lookup *)

Section Hierarchy.

Import ControlSystem.

(** Every class derives from [Module]. *)
Lemma is_a_Module (c : ClassId) : is_a c C_Module = true.
Proof. destruct c; reflexivity. Qed.

(** Deriving is transitive. *)
Lemma is_a_trans (c T U : ClassId) :
  is_a c T = true -> is_a T U = true -> is_a c U = true.
Proof. destruct c, T; try discriminate; destruct U; try discriminate; reflexivity. Qed.

Lemma getModule_Some (T : ClassId) (cs : ControlSystem.t) (name : string) (o : ModuleObj) :
  getModule T cs name = Some o <->
  exists it, modules_ cs !! name = Some it /\ module it = Some o /\
             is_a (dynamic_type o) T = true.
Proof.
  unfold getModule. destruct (modules_ cs !! name) as [it|].
  - rewrite dynamic_pointer_cast_Some. split.
    + intros [Ho Ha]. exists it. auto.
    + intros (it' & [= <-] & Ho & Ha). auto.
  - split; [discriminate | intros (it' & Hit & _); discriminate].
Qed.

End Hierarchy.

(** X12. Looking a module up as the base class [Module] never fails on the
    cast: the result is the pointer stored under the name (empty only if
    the name is not registered or the stored pointer is empty). *)
Theorem X12_getModule_as_Module (cs : ControlSystem.t) (name : string) :
  ControlSystem.getModule C_Module cs name
  = (it ← ControlSystem.modules_ cs !! name; ControlSystem.module it).
Proof.
  unfold ControlSystem.getModule.
  destruct (ControlSystem.modules_ cs !! name) as [it|]; [|reflexivity]. cbn.
  unfold dynamic_pointer_cast. destruct (ControlSystem.module it) as [o|]; [|reflexivity].
  rewrite is_a_Module. reflexivity.
Qed.

(** X13. A lookup that succeeds for a class [T] succeeds, with the same
    module, for every class [U] that [T] derives from. *)
Theorem X13_getModule_upcast
    (T U : ClassId) (cs : ControlSystem.t) (name : string) (o : ModuleObj) :
  ControlSystem.getModule T cs name = Some o ->
  is_a T U = true ->
  ControlSystem.getModule U cs name = Some o.
Proof.
  intros H HTU. apply getModule_Some in H. destruct H as (it & Hit & Ho & Ha).
  apply getModule_Some. exists it. repeat split; try assumption.
  exact (is_a_trans _ _ _ Ha HTU).
Qed.

(** The mock actuator found as a MockActuator is found as an ActuatorModule. *)
Lemma X13_getModule_upcast_witness :
  ControlSystem.getModule C_ActuatorModule ControlSystem.sample_system "heater"
  = Some (MockActuatorObj MockActuator.ctor).
Proof.
  apply (X13_getModule_upcast C_MockActuator C_ActuatorModule); reflexivity.
Defined.

(** ** The temperature sensor's calibration *)

(** X15. [calibrate()] does not reset the read count, so after any number
    (at least one) of calibrations [needsCalibration()] is true exactly
    when more than 10000 readings have been taken: past that count
    calibrating no longer clears the need to calibrate. *)
Theorem X15_calibrate_does_not_reset_read_count (n : nat) (s : TemperatureSensor.t) :
  let sn := Nat.iter (S n) (fun x => fst (TemperatureSensor.calibrate x)) s in
  TemperatureSensor.readCount_ sn = TemperatureSensor.readCount_ s /\
  TemperatureSensor.needsCalibration sn = (10000 <? TemperatureSensor.readCount_ s)%Z.
Proof.
  cbv zeta. induction n as [|n IH].
  - split; reflexivity.
  - destruct IH as [IH1 IH2]. rewrite Nat.iter_succ.
    set (sn := Nat.iter (S n) _ s) in *. split.
    + exact IH1.
    + change ((10000 <? TemperatureSensor.readCount_ sn)%Z
              = (10000 <? TemperatureSensor.readCount_ s)%Z).
      rewrite IH1. reflexivity.
Qed.
